(** * Client-side safety measures of the flashloan bot (utils/SafetyWrapper.js)

    A shallow embedding of the module [utils/SafetyWrapper.js]: the global
    object [SAFETY_CONFIG], the exported functions that read and write it, and
    the properties of the circuit breaker, the validators, the monitored
    transaction wrapper and the status report.

    Conventions of the embedding.
    - The module owns one mutable object, [SAFETY_CONFIG]; it is the state
      that every function threads.  A JavaScript function that may throw is a
      function from the state to the state it leaves behind and a completion
      ([Return v] or [Throw x]): an assignment made before a [throw] stays.
    - JavaScript numbers are modelled by [Z] where the program counts or
      compares (exact for integers of magnitude below 2^53) and by [Q] where
      it divides or scales (the slippage figures).
    - [console.log], [console.warn] and [console.error] are not modelled, but
      the evaluation of their arguments is where it can throw: the read of
      [error.message] in [monitoredTransaction].  [txDescription], a string
      that is only printed, is left out.
    - [await txPromise] is modelled by the way the promise settles, which the
      wrapper receives as its argument: the caller has already started the
      operation when it builds the promise. *)

From Stdlib Require Import ZArith Bool String List QArith DecimalString Lia.
Import ListNotations.

Local Open Scope string_scope.
Local Open Scope Z_scope.

(** ** The state: [SAFETY_CONFIG] *)

Record circuitBreaker_t : Type := mk_circuitBreaker {
  consecutiveFailures : Z;
  maxFailures : Z;
  isActive : bool
}.

Record testMode_t : Type := mk_testMode {
  enabled : bool;
  maxTestTrades : Z;
  completedTrades : Z;
  maxTestAmount : Z
}.

Record config : Type := mk_config {
  maxSlippageTolerance : Z;
  maxGasPrice : Z;
  maxTradeSize : Z;
  authorizedFlashloanProviders : list string;
  circuitBreaker : circuitBreaker_t;
  testMode : testMode_t
}.

(** The object literal the module starts from. *)
Definition SAFETY_CONFIG : config := {|
  maxSlippageTolerance := 50;
  maxGasPrice := 1000;
  maxTradeSize := 10000;
  authorizedFlashloanProviders :=
    [ "0x7d2768dE32b0b80b7a3454c06BdAc94A69DDc7A9";
      "0x89d065572136814230A55DdEeDDEC9DF34EB0B76";
      "0x470fBfb1e62D0c1c0c5b6d3b5e5e5e5e5e5e5e5";
      "0x1F98431c8aD98523631AE4a59f267346ea31F984";
      "0xcA143Ce32Fe78f1f7019d7d551a6402fC5350c73" ];
  circuitBreaker :=
    {| consecutiveFailures := 0; maxFailures := 3; isActive := false |};
  testMode :=
    {| enabled := true; maxTestTrades := 5; completedTrades := 0;
       maxTestAmount := 500 |}
|}.

(** Assignments to the fields the module writes.  Each one rebuilds the
    record around the new value, every other field is carried over. *)

Definition with_circuitBreaker (f : circuitBreaker_t -> circuitBreaker_t)
    (s : config) : config :=
  {| maxSlippageTolerance := maxSlippageTolerance s;
     maxGasPrice := maxGasPrice s;
     maxTradeSize := maxTradeSize s;
     authorizedFlashloanProviders := authorizedFlashloanProviders s;
     circuitBreaker := f (circuitBreaker s);
     testMode := testMode s |}.

Definition with_testMode (f : testMode_t -> testMode_t) (s : config) : config :=
  {| maxSlippageTolerance := maxSlippageTolerance s;
     maxGasPrice := maxGasPrice s;
     maxTradeSize := maxTradeSize s;
     authorizedFlashloanProviders := authorizedFlashloanProviders s;
     circuitBreaker := circuitBreaker s;
     testMode := f (testMode s) |}.

(** [SAFETY_CONFIG.circuitBreaker.isActive = b] *)
Definition set_isActive (b : bool) : config -> config :=
  with_circuitBreaker (fun cb =>
    {| consecutiveFailures := consecutiveFailures cb;
       maxFailures := maxFailures cb;
       isActive := b |}).

(** [SAFETY_CONFIG.circuitBreaker.consecutiveFailures = n] *)
Definition set_consecutiveFailures (n : Z) : config -> config :=
  with_circuitBreaker (fun cb =>
    {| consecutiveFailures := n;
       maxFailures := maxFailures cb;
       isActive := isActive cb |}).

(** [SAFETY_CONFIG.testMode.completedTrades = n] *)
Definition set_completedTrades (n : Z) : config -> config :=
  with_testMode (fun tm =>
    {| enabled := enabled tm;
       maxTestTrades := maxTestTrades tm;
       completedTrades := n;
       maxTestAmount := maxTestAmount tm |}).

(** [SAFETY_CONFIG.testMode.enabled = b] *)
Definition set_enabled (b : bool) : config -> config :=
  with_testMode (fun tm =>
    {| enabled := b;
       maxTestTrades := maxTestTrades tm;
       completedTrades := completedTrades tm;
       maxTestAmount := maxTestAmount tm |}).

(** ** Exceptions and the state monad of the module *)

(** An [Error] object built by [new Error(message)]. *)
Record Error : Type := new_Error { message : string }.

(** How a call ends: with a value, or with a thrown [x]. *)
Inductive completion (X A : Type) : Type :=
| Return (v : A)
| Throw (x : X).
Arguments Return {X A} v.
Arguments Throw {X A} x.

Definition M (X A : Type) : Type := config -> config * completion X A.

Definition ret {X A} (v : A) : M X A := fun s => (s, Return v).

Definition throw {X A} (x : X) : M X A := fun s => (s, Throw x).

Definition bind {X A B} (m : M X A) (k : A -> M X B) : M X B :=
  fun s =>
    match m s with
    | (s', Return v) => k v s'
    | (s', Throw x) => (s', Throw x)
    end.

Definition gets {X A} (f : config -> A) : M X A := fun s => (s, Return (f s)).

Definition modify {X} (f : config -> config) : M X unit :=
  fun s => (f s, Return tt).

(** [if (b) { m }] *)
Definition when {X} (b : bool) (m : M X unit) : M X unit :=
  if b then m else ret tt.

(** An exception of type [X] that crosses a block whose own exceptions have
    type [Y]: it propagates unchanged, tagged by [inj]. *)
Definition propagate {X Y A} (inj : X -> Y) (m : M X A) : M Y A :=
  fun s =>
    match m s with
    | (s', Return v) => (s', Return v)
    | (s', Throw x) => (s', Throw (inj x))
    end.

Declare Scope js_scope.
Delimit Scope js_scope with js.
Notation "x <- m ;; k" := (bind m (fun x => k))
  (at level 61, m at next level, right associativity) : js_scope.
Notation "m ;; k" := (bind m (fun _ => k))
  (at level 61, right associativity) : js_scope.
Local Open Scope js_scope.

(** ** JavaScript operators the module uses *)

(** Template-literal rendering of an integer: [`${n}`]. *)
Definition string_of_Z (z : Z) : string := NilZero.string_of_int (Z.to_int z).

(** Truthiness of a number: every number but zero. *)
Definition truthy (z : Z) : bool := negb (z =? 0).

(** [Array.prototype.includes] on an array of strings: exact,
    case-sensitive comparison of every element with [x]. *)
Fixpoint includes (l : list string) (x : string) : bool :=
  match l with
  | [] => false
  | y :: l' => if String.eqb y x then true else includes l' x
  end.

(** The argument of [validateTransaction].  A field is [None] when the
    object does not carry it ([undefined]).  The function reads [gasPrice]
    and [amount]; an object may carry more, as the [counterparty] of the
    callers' transactions, which the function never reads. *)
Record txData : Type := mk_txData {
  counterparty : option string;
  gasPrice : option Z;
  amount : option Z
}.

(** How the promise given to [monitoredTransaction] settles: fulfilled with
    a result, or rejected with the operation's own error. *)
Inductive settled (T E : Type) : Type :=
| Fulfilled (result : T)
| Rejected (error : E).
Arguments Fulfilled {T E} result.
Arguments Rejected {T E} error.

(** What a promise can be rejected with, by what becomes of the read of
    [error.message]: [Undefined] and [Null] have no properties; a [Value] is
    any other value whose [message] can be read (an [Error] object, a
    string, a number, a plain object, with or without such a property); a
    [Trapped] value is an object whose [message] is an accessor or a proxy
    trap that throws [x]. *)
Inductive rejection (E : Type) : Type :=
| Undefined
| Null
| Value (error : E)
| Trapped (error : E) (x : E).
Arguments Undefined {E}.
Arguments Null {E}.
Arguments Value {E} error.
Arguments Trapped {E} error x.

(** What [monitoredTransaction] throws: the [Error] of [emergencyStop], the
    [TypeError] of the engine for a property read on [undefined] or [null],
    what an accessor threw, or the value the promise was rejected with. *)
Inductive thrown (E : Type) : Type :=
| Stop (err : Error)
| TypeError
| Trap (x : E)
| Rethrown (error : rejection E).
Arguments Stop {E} err.
Arguments TypeError {E}.
Arguments Trap {E} x.
Arguments Rethrown {E} error.

(** The evaluation of [error.message]. *)
Definition read_message {E} (error : rejection E) : M (thrown E) unit :=
  match error with
  | Undefined | Null => throw TypeError
  | Value _ => ret tt
  | Trapped _ x => throw (Trap x)
  end.

(** ** The functions of the module *)

(** [emergencyStop(reason)]: sets the breaker's flag, then throws. *)
Definition emergencyStop {A} (reason : string) : M Error A :=
  modify (set_isActive true) ;;
  throw (new_Error ("EMERGENCY STOP: " ++ reason)).

(** [checkCircuitBreaker()] *)
Definition checkCircuitBreaker : M Error unit :=
  tooMany <- gets (fun s =>
    consecutiveFailures (circuitBreaker s) >=? maxFailures (circuitBreaker s)) ;;
  when tooMany (emergencyStop "Too many consecutive failures") ;;
  active <- gets (fun s => isActive (circuitBreaker s)) ;;
  when active (emergencyStop "Circuit breaker manually activated").

(** [validateFlashloanProvider(providerAddress)] *)
Definition validateFlashloanProvider (providerAddress : string) : M Error unit :=
  known <- gets (fun s => includes (authorizedFlashloanProviders s) providerAddress) ;;
  when (negb known)
    (emergencyStop ("Unauthorized flashloan provider: " ++ providerAddress)).

(** [calculateSafeSlippage(amountIn, expectedOut)]; [amountIn] is not used
    by the source either. *)
Definition calculateSafeSlippage (amountIn expectedOut : Q) : M Error Q :=
  tolerance <- gets maxSlippageTolerance ;;
  ret (expectedOut * inject_Z (10000 - tolerance) / inject_Z 10000)%Q.

(** [safeApprove(tokenContract, spender, amount)]: the token contract is an
    outside object, given here by its [approve] method. *)
Definition safeApprove {R} (approve : string -> Q -> R) (spender : string)
    (amount : Q) : M Error R :=
  let MAX_APPROVAL := (amount * (11 # 10))%Q in
  ret (approve spender MAX_APPROVAL).

(** [validateTransaction(txData)] *)
Definition validateTransaction (tx : txData) : M Error unit :=
  (* Gas price check *)
  match gasPrice tx with
  | Some g =>
      limit <- gets maxGasPrice ;;
      when (truthy g && (g >? limit))
        (emergencyStop ("Gas price too high: " ++ string_of_Z g ++ " gwei > "
                        ++ string_of_Z limit ++ " gwei"))
  | None => ret tt
  end ;;
  (* Trade size check *)
  match amount tx with
  | Some a =>
      when (truthy a)
        (maxAllowed <- gets (fun s =>
           if enabled (testMode s) then maxTestAmount (testMode s)
           else maxTradeSize s) ;;
         when (a >? maxAllowed)
           (emergencyStop ("Trade size too large: $" ++ string_of_Z a ++ " > $"
                           ++ string_of_Z maxAllowed)))
  | None => ret tt
  end ;;
  (* Test mode limits *)
  testing <- gets (fun s => enabled (testMode s)) ;;
  when testing
    (reached <- gets (fun s =>
       completedTrades (testMode s) >=? maxTestTrades (testMode s)) ;;
     when reached
       (emergencyStop "Test mode limit reached - manual review required")).

(** [monitoredTransaction(txPromise, txDescription)].  The [try] block runs
    from the settlement of the promise on; nothing else in it can throw, so
    the [catch] block runs exactly when the promise is rejected.  In the
    [catch] block the argument [error.message] of [console.error] is
    evaluated between the increment and [checkCircuitBreaker]; an exception
    of that read or of [checkCircuitBreaker] leaves the block in place of the
    [throw error] at its end. *)
Definition monitoredTransaction {T E} (txPromise : settled T (rejection E))
    : M (thrown E) T :=
  match txPromise with
  | Fulfilled result =>
      (* Reset failure counter on success *)
      modify (set_consecutiveFailures 0) ;;
      (* Track test trades *)
      testing <- gets (fun s => enabled (testMode s)) ;;
      when testing
        (modify (fun s => set_completedTrades (completedTrades (testMode s) + 1) s)) ;;
      ret result
  | Rejected error =>
      modify (fun s =>
        set_consecutiveFailures (consecutiveFailures (circuitBreaker s) + 1) s) ;;
      read_message error ;;
      propagate Stop checkCircuitBreaker ;;
      throw (Rethrown error)
  end.

(** [activateCircuitBreaker()] *)
Definition activateCircuitBreaker : M Error unit :=
  modify (set_isActive true).

(** [deactivateCircuitBreaker()] *)
Definition deactivateCircuitBreaker : M Error unit :=
  modify (set_isActive false) ;;
  modify (set_consecutiveFailures 0).

(** [disableTestMode()] *)
Definition disableTestMode : M Error unit :=
  modify (set_enabled false).

(** ** The status report *)

(** The literal of [SAFETY_CONFIG] allocates three inner objects: the
    [circuitBreaker] object, the [testMode] object and the array of
    providers.  No function of the module ever stores another object in
    these fields (they assign to the fields of the inner objects only), so
    each of the three has one fixed location for the life of the module.  A
    [ref A] is such a location, and [deref] reads through it in the current
    state. *)
Inductive ref : Type -> Type :=
| ref_circuitBreaker : ref circuitBreaker_t
| ref_testMode : ref testMode_t
| ref_authorizedFlashloanProviders : ref (list string).

Definition deref {A} (r : ref A) (s : config) : A :=
  match r in ref B return B with
  | ref_circuitBreaker => circuitBreaker s
  | ref_testMode => testMode s
  | ref_authorizedFlashloanProviders => authorizedFlashloanProviders s
  end.

Module Limits.
(** The object built for the [limits] field: three numbers. *)
Record t : Type := mk {
  maxSlippage : Q;
  maxGasPrice : Z;
  maxTradeSize : Z
}.
End Limits.

Module Status.
(** The object [getSafetyStatus] returns.  [circuitBreaker], [testMode]
    and [authorizedProviders] hold the inner objects of [SAFETY_CONFIG]
    themselves; [limits] is a new object holding numbers. *)
Record t : Type := mk {
  circuitBreaker : ref circuitBreaker_t;
  testMode : ref testMode_t;
  limits : Limits.t;
  authorizedProviders : ref (list string)
}.
End Status.

(** [getSafetyStatus()] *)
Definition getSafetyStatus : M Error Status.t :=
  gets (fun s =>
    {| Status.circuitBreaker := ref_circuitBreaker;
       Status.testMode := ref_testMode;
       Status.limits :=
         {| Limits.maxSlippage := (inject_Z (maxSlippageTolerance s) / inject_Z 100)%Q;
            Limits.maxGasPrice := maxGasPrice s;
            Limits.maxTradeSize :=
              if enabled (testMode s) then maxTestAmount (testMode s)
              else maxTradeSize s |};
       Status.authorizedProviders := ref_authorizedFlashloanProviders |}).

(** ** Calls and their effect on the state *)

(** One call of an exported function with its arguments.  Each call runs to
    completion before the next one starts: the functions are synchronous,
    and [monitoredTransaction] touches the state only in the continuation of
    its single [await], which runs when the promise has settled. *)
Inductive call : Type :=
| call_emergencyStop (reason : string)
| call_checkCircuitBreaker
| call_validateFlashloanProvider (providerAddress : string)
| call_calculateSafeSlippage (amountIn expectedOut : Q)
| call_safeApprove {R : Type} (approve : string -> Q -> R) (spender : string) (amount : Q)
| call_validateTransaction (tx : txData)
| call_monitoredTransaction {T E : Type} (txPromise : settled T (rejection E))
| call_getSafetyStatus
| call_activateCircuitBreaker
| call_deactivateCircuitBreaker
| call_disableTestMode.

(** The state a call leaves behind, whether it returns or throws. *)
Definition exec (c : call) (s : config) : config :=
  match c with
  | call_emergencyStop reason => fst (emergencyStop (A := unit) reason s)
  | call_checkCircuitBreaker => fst (checkCircuitBreaker s)
  | call_validateFlashloanProvider a => fst (validateFlashloanProvider a s)
  | call_calculateSafeSlippage i o => fst (calculateSafeSlippage i o s)
  | call_safeApprove approve spender a => fst (safeApprove approve spender a s)
  | call_validateTransaction tx => fst (validateTransaction tx s)
  | call_monitoredTransaction p => fst (monitoredTransaction p s)
  | call_getSafetyStatus => fst (getSafetyStatus s)
  | call_activateCircuitBreaker => fst (activateCircuitBreaker s)
  | call_deactivateCircuitBreaker => fst (deactivateCircuitBreaker s)
  | call_disableTestMode => fst (disableTestMode s)
  end.

(** A sequence of calls, the first of the list first. *)
Fixpoint run (cs : list call) (s : config) : config :=
  match cs with
  | [] => s
  | c :: cs' => run cs' (exec c s)
  end.

(** The breaker is tripped: its flag is set, or the failure count has
    reached the threshold.  This is the condition under which
    [checkCircuitBreaker] throws. *)
Definition tripped (s : config) : bool :=
  isActive (circuitBreaker s)
  || (consecutiveFailures (circuitBreaker s) >=? maxFailures (circuitBreaker s)).

(** ** Notions used to state the properties *)

(** The gas price of [tx] passes the gas price check in [s]. *)
Definition gasPrice_passes (tx : txData) (s : config) : Prop :=
  match gasPrice tx with
  | Some g => g = 0 \/ g <= maxGasPrice s
  | None => True
  end.

(** The amount of [tx] passes the trade size check in [s]. *)
Definition amount_passes (tx : txData) (s : config) : Prop :=
  match amount tx with
  | Some a =>
      a = 0 \/ a <= (if enabled (testMode s) then maxTestAmount (testMode s)
                     else maxTradeSize s)
  | None => True
  end.

Module View.
(** The plain values read through a status object: what
    [JSON.stringify(status)] prints. *)
Record t : Type := mk {
  circuitBreaker : circuitBreaker_t;
  testMode : testMode_t;
  limits : Limits.t;
  authorizedProviders : list string
}.
End View.

(** Reading every field of the status object [snap] while the module is in
    state [s]: the fields that hold objects of [SAFETY_CONFIG] are read in
    [s], the [limits] object carries its own numbers. *)
Definition observe (snap : Status.t) (s : config) : View.t :=
  {| View.circuitBreaker := deref (Status.circuitBreaker snap) s;
     View.testMode := deref (Status.testMode snap) s;
     View.limits := Status.limits snap;
     View.authorizedProviders := deref (Status.authorizedProviders snap) s |}.

(** A field that holds zero, read as an absent one. *)
Definition zero_as_absent (field : option Z) : option Z :=
  match field with
  | Some z => if z =? 0 then None else Some z
  | None => None
  end.

(** The test mode limit leaves room for a trade in [s]. *)
Definition below_test_limit (s : config) : Prop :=
  enabled (testMode s) = true ->
  completedTrades (testMode s) < maxTestTrades (testMode s).

(** The read of [error.message] returns. *)
Definition message_readable {E} (error : rejection E) : bool :=
  match error with
  | Value _ => true
  | _ => false
  end.

(** The call is not a monitored transaction whose promise is rejected with
    an error of which the message cannot be read. *)
Definition reads_message (c : call) : bool :=
  match c with
  | call_monitoredTransaction (Rejected error) => message_readable error
  | _ => true
  end.

(** Kinds of calls. *)
Definition is_deactivate (c : call) : bool :=
  match c with
  | call_deactivateCircuitBreaker => true
  | _ => false
  end.

Definition is_disableTestMode (c : call) : bool :=
  match c with
  | call_disableTestMode => true
  | _ => false
  end.

Definition is_fulfilled (c : call) : bool :=
  match c with
  | call_monitoredTransaction (Fulfilled _) => true
  | _ => false
  end.

(** Monitored transactions, one per element, all rejected or all
    fulfilled. *)
Definition failures {E} (errors : list (rejection E)) : list call :=
  map (fun error => call_monitoredTransaction (T := unit) (Rejected error)) errors.

Definition successes {T} (results : list T) : list call :=
  map (fun result => call_monitoredTransaction (E := unit) (Fulfilled result)) results.

(** What the states the module goes through have in common, the threshold
    being positive: the failure count is not negative, and the flag is set
    whenever the count has reached the threshold. *)
Definition breaker_consistent (s : config) : Prop :=
  0 < maxFailures (circuitBreaker s)
  /\ 0 <= consecutiveFailures (circuitBreaker s)
  /\ (consecutiveFailures (circuitBreaker s) >= maxFailures (circuitBreaker s) ->
      isActive (circuitBreaker s) = true).

(** ** Basic facts about the embedding *)

Ltac unfold_js :=
  unfold emergencyStop, when, bind, gets, modify, ret, throw, propagate in *.

(** Boolean comparisons in the hypotheses, turned into their propositions. *)
Ltac z_bool :=
  repeat match goal with
         | H : _ && _ = true |- _ => apply andb_true_iff in H; destruct H
         | H : negb _ = true |- _ => apply negb_true_iff in H
         | H : (_ =? _) = false |- _ => apply Z.eqb_neq in H
         | H : (_ =? _) = true |- _ => apply Z.eqb_eq in H
         | H : (_ >? _) = true |- _ => rewrite Z.gtb_ltb in H; apply Z.ltb_lt in H
         | H : (_ >? _) = false |- _ => rewrite Z.gtb_ltb in H; apply Z.ltb_ge in H
         | H : (_ >=? _) = true |- _ => rewrite Z.geb_leb in H; apply Z.leb_le in H
         | H : (_ >=? _) = false |- _ => rewrite Z.geb_leb in H; apply Z.leb_gt in H
         end.

(** Case analysis on every condition the goal branches on. *)
Ltac split_ifs :=
  repeat match goal with
         | |- context [if ?b then _ else _] => destruct b eqn:?
         end.

Lemma includes_In (l : list string) (x : string) :
  includes l x = true <-> In x l.
Proof.
  induction l as [|y l IH]; simpl.
  - split; [discriminate | tauto].
  - destruct (String.eqb_spec y x) as [->|Hne].
    + split; auto.
    + rewrite IH. split; [auto | intros [H|H]; [contradiction | exact H]].
Qed.

Lemma includes_not_In (l : list string) (x : string) :
  includes l x = false <-> ~ In x l.
Proof.
  rewrite <- includes_In. destruct (includes l x); split; intro H;
    try reflexivity; try discriminate. now elim H.
Qed.

Lemma emergencyStop_eq (A : Type) (reason : string) (s : config) :
  emergencyStop (A := A) reason s
  = (set_isActive true s, Throw (new_Error ("EMERGENCY STOP: " ++ reason))).
Proof. reflexivity. Qed.

(** [checkCircuitBreaker] returns, leaving the state as it is, when the
    breaker is not tripped; it throws an emergency stop when it is. *)
Lemma checkCircuitBreaker_ready (s : config) :
  tripped s = false -> checkCircuitBreaker s = (s, Return tt).
Proof.
  unfold tripped, checkCircuitBreaker. intros H.
  apply orb_false_iff in H as [Ha Hc].
  unfold_js. rewrite Hc, Ha. reflexivity.
Qed.

Lemma checkCircuitBreaker_tripped (s : config) :
  tripped s = true ->
  exists reason,
    checkCircuitBreaker s
    = (set_isActive true s, Throw (new_Error ("EMERGENCY STOP: " ++ reason))).
Proof.
  unfold tripped, checkCircuitBreaker. intros H. unfold_js.
  destruct (consecutiveFailures (circuitBreaker s) >=? maxFailures (circuitBreaker s)).
  - eexists. reflexivity.
  - rewrite orb_false_r in H. rewrite H. eexists. reflexivity.
Qed.

(** The two ways [validateTransaction] ends: it returns and leaves the state
    as it is, or it goes through [emergencyStop]. *)
Lemma validateTransaction_cases (tx : txData) (s : config) :
  validateTransaction tx s = (s, Return tt)
  \/ exists reason,
       validateTransaction tx s
       = (set_isActive true s, Throw (new_Error ("EMERGENCY STOP: " ++ reason))).
Proof.
  unfold validateTransaction. unfold_js.
  destruct (gasPrice tx) as [g|], (amount tx) as [a|];
    split_ifs; (left; reflexivity) || (right; eexists; reflexivity).
Qed.

Lemma validateFlashloanProvider_cases (providerAddress : string) (s : config) :
  (includes (authorizedFlashloanProviders s) providerAddress = true
   /\ validateFlashloanProvider providerAddress s = (s, Return tt))
  \/ (includes (authorizedFlashloanProviders s) providerAddress = false
      /\ validateFlashloanProvider providerAddress s
         = (set_isActive true s,
            Throw (new_Error ("EMERGENCY STOP: Unauthorized flashloan provider: "
                              ++ providerAddress)))).
Proof.
  unfold validateFlashloanProvider. unfold_js.
  destruct (includes _ _); [left | right]; split; reflexivity.
Qed.

(** The run of [test_safety_measures.js] from the initial state: the valid
    provider is accepted, the invalid one rejected, the transaction of 100
    validated, the transaction of 1000 rejected, and the monitored
    transaction, whose promise is fulfilled, reported as successful, the
    breaker's flag having been set by the rejections before it. *)
Example test_safety_measures_run :
  let s2 := fst (validateFlashloanProvider
                   "0x7d2768dE32b0b80b7a3454c06BdAc94A69DDc7A9" SAFETY_CONFIG) in
  let s3 := fst (validateFlashloanProvider
                   "0x1234567890123456789012345678901234567890" s2) in
  let s5 := fst (validateTransaction {| counterparty := None; gasPrice := Some 500; amount := Some 100 |} s3) in
  let s6 := fst (validateTransaction {| counterparty := None; gasPrice := Some 500; amount := Some 1000 |} s5) in
  snd (validateFlashloanProvider
         "0x7d2768dE32b0b80b7a3454c06BdAc94A69DDc7A9" SAFETY_CONFIG) = Return tt
  /\ snd (validateFlashloanProvider
            "0x1234567890123456789012345678901234567890" s2)
     = Throw (new_Error ("EMERGENCY STOP: Unauthorized flashloan provider: "
                         ++ "0x1234567890123456789012345678901234567890"))
  /\ snd (validateTransaction {| counterparty := None; gasPrice := Some 500; amount := Some 100 |} s3)
     = Return tt
  /\ snd (validateTransaction {| counterparty := None; gasPrice := Some 500; amount := Some 1000 |} s5)
     = Throw (new_Error "EMERGENCY STOP: Trade size too large: $1000 > $500")
  /\ isActive (circuitBreaker s6) = true
  /\ snd (monitoredTransaction (E := string) (Fulfilled "0x123...") s6)
     = Return "0x123...".
Proof. cbv zeta. repeat split. Qed.

(** ** The monitored transaction wrapper *)

(** A rejected promise: the failure count goes up by one; then, the message
    of the error being read, [checkCircuitBreaker] decides what is thrown. *)
Lemma monitoredTransaction_rejected_ready (T E : Type) (error : E) (s : config) :
  let s1 := set_consecutiveFailures (consecutiveFailures (circuitBreaker s) + 1) s in
  tripped s1 = false ->
  monitoredTransaction (T := T) (Rejected (Value error)) s
  = (s1, Throw (Rethrown (Value error))).
Proof.
  intros s1 H. unfold monitoredTransaction, read_message, bind, modify, propagate, ret.
  fold s1. rewrite (checkCircuitBreaker_ready s1 H). reflexivity.
Qed.

Lemma monitoredTransaction_rejected_tripped (T E : Type) (error : E) (s : config) :
  let s1 := set_consecutiveFailures (consecutiveFailures (circuitBreaker s) + 1) s in
  tripped s1 = true ->
  exists reason,
    monitoredTransaction (T := T) (Rejected (Value error)) s
    = (set_isActive true s1,
       Throw (Stop (new_Error ("EMERGENCY STOP: " ++ reason)))).
Proof.
  intros s1 H. unfold monitoredTransaction, read_message, bind, modify, propagate, ret.
  fold s1. destruct (checkCircuitBreaker_tripped s1 H) as [reason ->].
  exists reason. reflexivity.
Qed.

(** When the message of the error cannot be read, the exception of the read
    leaves the [catch] block after the increment: [checkCircuitBreaker] is
    not run and nothing but the count changes. *)
Lemma monitoredTransaction_rejected_unreadable
    (T E : Type) (error : rejection E) (s : config) :
  message_readable error = false ->
  monitoredTransaction (T := T) (Rejected error) s
  = (set_consecutiveFailures (consecutiveFailures (circuitBreaker s) + 1) s,
     Throw (match error with
            | Trapped _ x => Trap x
            | _ => TypeError
            end)).
Proof.
  destruct error as [| |e|e x]; intros H; try discriminate H; reflexivity.
Qed.

Lemma monitoredTransaction_rejected_count
    (T E : Type) (error : rejection E) (s : config) :
  exists s' x,
    monitoredTransaction (T := T) (Rejected error) s = (s', Throw x)
    /\ consecutiveFailures (circuitBreaker s')
       = consecutiveFailures (circuitBreaker s) + 1.
Proof.
  destruct (message_readable error) eqn:Hm.
  - destruct error as [| |e|e x]; try discriminate Hm.
    destruct (tripped (set_consecutiveFailures
                         (consecutiveFailures (circuitBreaker s) + 1) s)) eqn:H.
    + destruct (monitoredTransaction_rejected_tripped T E e s H) as [reason ->].
      do 2 eexists. split; reflexivity.
    + rewrite (monitoredTransaction_rejected_ready T E e s H).
      do 2 eexists. split; reflexivity.
  - rewrite (monitoredTransaction_rejected_unreadable T E error s Hm).
    do 2 eexists. split; reflexivity.
Qed.

Lemma monitoredTransaction_fulfilled (T E : Type) (result : T) (s : config) :
  monitoredTransaction (E := E) (Fulfilled result) s
  = (let s0 := set_consecutiveFailures 0 s in
     if enabled (testMode s)
     then set_completedTrades (completedTrades (testMode s) + 1) s0
     else s0,
     Return result).
Proof.
  unfold monitoredTransaction. unfold_js. cbn.
  destruct (enabled (testMode s)); reflexivity.
Qed.

(** *** C1 *)

(** C1, as the specification states it, fails: with the breaker's flag set
    by [activateCircuitBreaker], a monitored transaction whose promise is
    fulfilled with [7] returns [7]; nothing is thrown, and the trade is
    counted. *)
Lemma monitoredTransaction_tripped_returns :
  let s0 := fst (activateCircuitBreaker SAFETY_CONFIG) in
  tripped s0 = true
  /\ monitoredTransaction (E := string) (Fulfilled 7) s0
     = (set_completedTrades 1 s0, Return 7)
  /\ forall x, snd (monitoredTransaction (E := string) (Fulfilled 7) s0) <> Throw x.
Proof.
  cbv zeta. split; [reflexivity|]. split; [reflexivity|].
  intros x. vm_compute. discriminate.
Qed.

(** C1 (amended).  [monitoredTransaction] makes no check of the circuit
    breaker before it awaits the promise.  In every state in which the
    breaker is tripped: when the promise is rejected with an error of which
    the message can be read, the wrapper counts the failure, sets the flag
    and throws an emergency stop; when the promise is fulfilled, the wrapper
    returns its result, resets the failure count to 0 and leaves the flag as
    it was. *)
Theorem monitoredTransaction_when_tripped (T E : Type) (s : config) :
  tripped s = true ->
  (forall error : rejection E, message_readable error = true ->
   exists reason,
     monitoredTransaction (T := T) (Rejected error) s
     = (set_isActive true
          (set_consecutiveFailures (consecutiveFailures (circuitBreaker s) + 1) s),
        Throw (Stop (new_Error ("EMERGENCY STOP: " ++ reason)))))
  /\ (forall result : T, exists s',
        monitoredTransaction (E := E) (Fulfilled result) s = (s', Return result)
        /\ consecutiveFailures (circuitBreaker s') = 0
        /\ isActive (circuitBreaker s') = isActive (circuitBreaker s)).
Proof.
  intros H. split.
  - intros [| |error|error x] Hm; try discriminate Hm.
    apply monitoredTransaction_rejected_tripped.
    unfold tripped in *. cbn.
    apply orb_true_iff in H as [H|H]; apply orb_true_iff; [left; exact H|right].
    apply Z.geb_le. apply Z.geb_le in H. lia.
  - intros result. rewrite monitoredTransaction_fulfilled. eexists. split; [reflexivity|].
    destruct (enabled (testMode s)); split; reflexivity.
Qed.

Lemma monitoredTransaction_when_tripped_witness :
  let s0 := fst (activateCircuitBreaker SAFETY_CONFIG) in
  tripped s0 = true
  /\ (exists reason,
     monitoredTransaction (T := Z) (Rejected (Value "reverted")) s0
     = (set_isActive true (set_consecutiveFailures 1 s0),
        Throw (Stop (new_Error ("EMERGENCY STOP: " ++ reason)))))
  /\ exists s',
       monitoredTransaction (E := string) (Fulfilled 7) s0 = (s', Return 7)
       /\ consecutiveFailures (circuitBreaker s') = 0
       /\ isActive (circuitBreaker s') = true.
Proof.
  cbv zeta.
  destruct (monitoredTransaction_when_tripped Z string
              (fst (activateCircuitBreaker SAFETY_CONFIG)) eq_refl) as [Hr Hf].
  split; [reflexivity|].
  split; [exact (Hr (Value "reverted") eq_refl) | exact (Hf 7)].
Defined.

(** *** C2 *)

(** C2, as the specification states it, fails: after two failures, a third
    rejected promise makes [checkCircuitBreaker] throw inside the [catch]
    block, and the caller receives the emergency stop, not the error the
    operation was rejected with. *)
Lemma monitoredTransaction_third_failure_replaces_error :
  let s2 := run [call_monitoredTransaction (T := unit) (Rejected (Value "first"));
                 call_monitoredTransaction (T := unit) (Rejected (Value "second"))]
                SAFETY_CONFIG in
  consecutiveFailures (circuitBreaker s2) = 2
  /\ snd (monitoredTransaction (T := unit) (Rejected (Value "third")) s2)
     = Throw (Stop (new_Error "EMERGENCY STOP: Too many consecutive failures"))
  /\ snd (monitoredTransaction (T := unit) (Rejected (Value "third")) s2)
     <> Throw (Rethrown (Value "third")).
Proof.
  cbv zeta. split; [reflexivity|]. split; [reflexivity|].
  vm_compute. discriminate.
Qed.

(** C2 (amended).  For every rejected promise the wrapper adds one to
    [consecutiveFailures] and always throws.  When the message of the error
    can be read, it then runs [checkCircuitBreaker]: if the breaker is not
    tripped after the increment, what it throws is the error the promise was
    rejected with, and nothing else in the state changes; if the breaker is
    tripped after the increment, the flag is set and what it throws is the
    emergency stop, in place of that error. *)
Theorem monitoredTransaction_failure
    (T E : Type) (error : rejection E) (s : config) :
  let s1 := set_consecutiveFailures (consecutiveFailures (circuitBreaker s) + 1) s in
  (exists s' x,
     monitoredTransaction (T := T) (Rejected error) s = (s', Throw x)
     /\ consecutiveFailures (circuitBreaker s')
        = consecutiveFailures (circuitBreaker s) + 1)
  /\ (message_readable error = true -> tripped s1 = false ->
      monitoredTransaction (T := T) (Rejected error) s
      = (s1, Throw (Rethrown error)))
  /\ (message_readable error = true -> tripped s1 = true ->
      exists reason,
        monitoredTransaction (T := T) (Rejected error) s
        = (set_isActive true s1,
           Throw (Stop (new_Error ("EMERGENCY STOP: " ++ reason))))).
Proof.
  intros s1. split; [|split].
  - apply monitoredTransaction_rejected_count.
  - destruct error as [| |e|e x]; intros Hm; try discriminate Hm.
    apply monitoredTransaction_rejected_ready.
  - destruct error as [| |e|e x]; intros Hm; try discriminate Hm.
    apply monitoredTransaction_rejected_tripped.
Qed.

Lemma monitoredTransaction_failure_witness :
  monitoredTransaction (T := unit) (Rejected (Value "reverted")) SAFETY_CONFIG
  = (set_consecutiveFailures 1 SAFETY_CONFIG, Throw (Rethrown (Value "reverted")))
  /\ exists reason,
       monitoredTransaction (T := unit) (Rejected (Value "reverted"))
         (set_consecutiveFailures 2 SAFETY_CONFIG)
       = (set_isActive true (set_consecutiveFailures 3 SAFETY_CONFIG),
          Throw (Stop (new_Error ("EMERGENCY STOP: " ++ reason)))).
Proof.
  split.
  - exact (proj1 (proj2 (monitoredTransaction_failure unit string
                           (Value "reverted") SAFETY_CONFIG)) eq_refl eq_refl).
  - exact (proj2 (proj2 (monitoredTransaction_failure unit string
                           (Value "reverted")
                           (set_consecutiveFailures 2 SAFETY_CONFIG)))
             eq_refl eq_refl).
Defined.

(** ** The validators *)

(** *** C3 *)

(** C3, as the specification states it, fails: with test mode enabled and
    five trades completed out of five, an amount of 1000 is rejected for its
    size (the ceiling is 500); the trade size check runs, and throws, before
    the test mode check is reached. *)
Lemma validateTransaction_amount_before_test_limit :
  let s5 := set_completedTrades 5 SAFETY_CONFIG in
  let tx := {| counterparty := None; gasPrice := Some 500; amount := Some 1000 |} in
  enabled (testMode s5) = true
  /\ completedTrades (testMode s5) >= maxTestTrades (testMode s5)
  /\ validateTransaction tx s5
     = (set_isActive true s5,
        Throw (new_Error "EMERGENCY STOP: Trade size too large: $1000 > $500"))
  /\ snd (validateTransaction tx s5)
     <> Throw (new_Error
                "EMERGENCY STOP: Test mode limit reached - manual review required").
Proof.
  cbv zeta. split; [reflexivity|]. split; [vm_compute; discriminate|].
  split; [reflexivity|]. vm_compute. discriminate.
Qed.

(** C3 (amended).  With test mode enabled and
    [completedTrades >= maxTestTrades], [validateTransaction] rejects every
    transaction and sets the breaker's flag.  The checks run in order and the
    first one that fails throws: the reason is the test mode limit whenever
    the gas price and the amount are absent, zero or within their ceilings;
    it is the gas price when that is over its ceiling, and the trade size
    when the gas price passes and the amount is over the test mode ceiling. *)
Theorem validateTransaction_test_limit (tx : txData) (s : config) :
  enabled (testMode s) = true ->
  completedTrades (testMode s) >= maxTestTrades (testMode s) ->
  (exists reason,
     validateTransaction tx s
     = (set_isActive true s, Throw (new_Error ("EMERGENCY STOP: " ++ reason))))
  /\ (gasPrice_passes tx s -> amount_passes tx s ->
      validateTransaction tx s
      = (set_isActive true s,
         Throw (new_Error
                  "EMERGENCY STOP: Test mode limit reached - manual review required")))
  /\ (forall g, gasPrice tx = Some g -> g <> 0 -> g > maxGasPrice s ->
      validateTransaction tx s
      = (set_isActive true s,
         Throw (new_Error
                  ("EMERGENCY STOP: Gas price too high: " ++ string_of_Z g
                   ++ " gwei > " ++ string_of_Z (maxGasPrice s) ++ " gwei"))))
  /\ (forall a, gasPrice_passes tx s -> amount tx = Some a -> a <> 0 ->
      a > maxTestAmount (testMode s) ->
      validateTransaction tx s
      = (set_isActive true s,
         Throw (new_Error
                  ("EMERGENCY STOP: Trade size too large: $" ++ string_of_Z a
                   ++ " > $" ++ string_of_Z (maxTestAmount (testMode s)))))).
Proof.
  intros Hen Hlim. split; [|split; [|split]].
  - destruct (validateTransaction_cases tx s) as [Hret|Hthrow]; [|exact Hthrow].
    exfalso. revert Hret. unfold validateTransaction. unfold_js.
    destruct (gasPrice tx) as [g|], (amount tx) as [a|];
      rewrite ?Hen; split_ifs; cbn; rewrite ?Hen; split_ifs;
      try discriminate; z_bool; lia.
  - unfold gasPrice_passes, amount_passes, validateTransaction, truthy. unfold_js.
    rewrite Hen.
    destruct (gasPrice tx) as [g|], (amount tx) as [a|]; intros Hg Ha;
      split_ifs; cbn; rewrite ?Hen; split_ifs;
      try reflexivity; exfalso; z_bool; lia.
  - intros g Hg Hnz Hgt. unfold validateTransaction, truthy. unfold_js.
    rewrite Hg. split_ifs; try reflexivity; exfalso; z_bool; lia.
  - intros a. unfold gasPrice_passes, validateTransaction, truthy. unfold_js.
    destruct (gasPrice tx) as [g|]; intros Hg -> Hnz Hgt;
      split_ifs; cbn; rewrite ?Hen; split_ifs;
      try reflexivity; exfalso; z_bool; try lia; congruence.
Qed.

Lemma validateTransaction_test_limit_witness :
  let s5 := set_completedTrades 5 SAFETY_CONFIG in
  let tx := {| counterparty := None; gasPrice := Some 500; amount := Some 100 |} in
  validateTransaction tx s5
  = (set_isActive true s5,
     Throw (new_Error
              "EMERGENCY STOP: Test mode limit reached - manual review required")).
Proof.
  cbv zeta.
  refine (proj1 (proj2 (validateTransaction_test_limit
                          {| counterparty := None; gasPrice := Some 500; amount := Some 100 |}
                          (set_completedTrades 5 SAFETY_CONFIG) eq_refl _)) _ _).
  - vm_compute. discriminate.
  - right. vm_compute. discriminate.
  - right. vm_compute. discriminate.
Defined.

(** *** C4 *)

(** C4.  Every rejection of the validators sets the breaker's flag: when
    [validateTransaction] throws (gas price too high, trade size too large,
    test mode limit reached) or [validateFlashloanProvider] throws
    (unauthorized provider), the state it leaves has [isActive = true]. *)
Theorem validator_rejection_sets_isActive :
  (forall (tx : txData) (s s' : config) (err : Error),
     validateTransaction tx s = (s', Throw err) ->
     isActive (circuitBreaker s') = true)
  /\ (forall (providerAddress : string) (s s' : config) (err : Error),
        validateFlashloanProvider providerAddress s = (s', Throw err) ->
        isActive (circuitBreaker s') = true).
Proof.
  split.
  - intros tx s s' err H.
    destruct (validateTransaction_cases tx s) as [Hr|[reason Hr]];
      rewrite Hr in H; inversion H; reflexivity.
  - intros a s s' err H.
    destruct (validateFlashloanProvider_cases a s) as [[_ Hr]|[_ Hr]];
      rewrite Hr in H; inversion H; reflexivity.
Qed.

Lemma validator_rejection_sets_isActive_witness :
  isActive (circuitBreaker
    (fst (validateTransaction {| counterparty := None; gasPrice := Some 2000; amount := None |}
            SAFETY_CONFIG))) = true
  /\ isActive (circuitBreaker
       (fst (validateFlashloanProvider "0x1234567890123456789012345678901234567890"
               SAFETY_CONFIG))) = true.
Proof.
  split.
  - exact (proj1 validator_rejection_sets_isActive
             {| counterparty := None; gasPrice := Some 2000; amount := None |} SAFETY_CONFIG _ _ eq_refl).
  - exact (proj2 validator_rejection_sets_isActive
             "0x1234567890123456789012345678901234567890" SAFETY_CONFIG _ _ eq_refl).
Defined.

(** *** C5 *)

(** C5, as the specification states it, fails: [validateTransaction] does
    not read the counterparty of the transaction.  A transaction within the
    limits whose counterparty is not in [authorizedFlashloanProviders] is
    validated, and the state is left as it is. *)
Lemma validateTransaction_unauthorized_counterparty_returns :
  let tx := {| counterparty := Some "0x1234567890123456789012345678901234567890";
               gasPrice := Some 500;
               amount := Some 100 |} in
  ~ In "0x1234567890123456789012345678901234567890"
       (authorizedFlashloanProviders SAFETY_CONFIG)
  /\ validateTransaction tx SAFETY_CONFIG = (SAFETY_CONFIG, Return tt).
Proof.
  cbv zeta. split; [|reflexivity].
  apply includes_not_In. reflexivity.
Qed.

(** C5 (amended).  The counterparty is checked by a function of its own:
    every provider address that is not an element of
    [authorizedFlashloanProviders] is rejected by
    [validateFlashloanProvider] as an unauthorized provider, and the
    breaker's flag is set.  Membership is equality of strings, so an address
    that differs from an authorized one only in the case of its letters is
    rejected as well.  [validateTransaction] ends the same way whatever
    counterparty the transaction carries. *)
Theorem validateFlashloanProvider_unauthorized
    (providerAddress : string) (tx : txData) (s : config) :
  (~ In providerAddress (authorizedFlashloanProviders s) ->
   validateFlashloanProvider providerAddress s
   = (set_isActive true s,
      Throw (new_Error ("EMERGENCY STOP: Unauthorized flashloan provider: "
                        ++ providerAddress))))
  /\ validateTransaction tx s
     = validateTransaction {| counterparty := None;
                              gasPrice := gasPrice tx;
                              amount := amount tx |} s.
Proof.
  split; [|reflexivity].
  intros H. apply includes_not_In in H.
  destruct (validateFlashloanProvider_cases providerAddress s) as [[Hi _]|[_ Hr]].
  - congruence.
  - exact Hr.
Qed.

Lemma validateFlashloanProvider_unauthorized_witness :
  let lower := "0x7d2768de32b0b80b7a3454c06bdac94a69ddc7a9" in
  In "0x7d2768dE32b0b80b7a3454c06BdAc94A69DDc7A9"
     (authorizedFlashloanProviders SAFETY_CONFIG)
  /\ ~ In lower (authorizedFlashloanProviders SAFETY_CONFIG)
  /\ validateFlashloanProvider lower SAFETY_CONFIG
     = (set_isActive true SAFETY_CONFIG,
        Throw (new_Error
                 ("EMERGENCY STOP: Unauthorized flashloan provider: " ++ lower))).
Proof.
  cbv zeta.
  assert (H : ~ In "0x7d2768de32b0b80b7a3454c06bdac94a69ddc7a9"
                (authorizedFlashloanProviders SAFETY_CONFIG))
    by (apply includes_not_In; reflexivity).
  split; [left; reflexivity|]. split; [exact H|].
  exact (proj1 (validateFlashloanProvider_unauthorized _
                  {| counterparty := None; gasPrice := None; amount := None |}
                  SAFETY_CONFIG) H).
Defined.

(** *** C10 *)

(** C10.  A rejection of a validator changes nothing but the breaker's flag:
    when [validateTransaction] or [validateFlashloanProvider] throws, the
    state it leaves is the state before the call with [isActive] set; the
    failure count and threshold, the test mode record with its trade count,
    the limits and the list of providers are what they were. *)
Theorem validator_rejection_frame :
  forall (s s' : config) (err : Error),
    (exists tx, validateTransaction tx s = (s', Throw err))
    \/ (exists providerAddress,
          validateFlashloanProvider providerAddress s = (s', Throw err)) ->
    s' = set_isActive true s
    /\ consecutiveFailures (circuitBreaker s') = consecutiveFailures (circuitBreaker s)
    /\ maxFailures (circuitBreaker s') = maxFailures (circuitBreaker s)
    /\ testMode s' = testMode s
    /\ maxSlippageTolerance s' = maxSlippageTolerance s
    /\ maxGasPrice s' = maxGasPrice s
    /\ maxTradeSize s' = maxTradeSize s
    /\ authorizedFlashloanProviders s' = authorizedFlashloanProviders s.
Proof.
  intros s s' err H.
  assert (Hs : s' = set_isActive true s).
  { destruct H as [[tx H]|[a H]].
    - destruct (validateTransaction_cases tx s) as [Hr|[reason Hr]];
        rewrite Hr in H; inversion H; reflexivity.
    - destruct (validateFlashloanProvider_cases a s) as [[_ Hr]|[_ Hr]];
        rewrite Hr in H; inversion H; reflexivity. }
  subst s'. repeat split.
Qed.

Lemma validator_rejection_frame_witness :
  let s := set_completedTrades 2 (set_consecutiveFailures 1 SAFETY_CONFIG) in
  let s' := fst (validateTransaction {| counterparty := None; gasPrice := None; amount := Some 501 |} s) in
  s' = set_isActive true s
  /\ consecutiveFailures (circuitBreaker s') = 1
  /\ completedTrades (testMode s') = 2.
Proof.
  cbv zeta.
  pose proof (validator_rejection_frame
                (set_completedTrades 2 (set_consecutiveFailures 1 SAFETY_CONFIG))
                _ _
                (or_introl (ex_intro _ {| counterparty := None; gasPrice := None; amount := Some 501 |}
                                     eq_refl))) as (Hs & Hc & _ & Ht & _).
  split; [exact Hs|]. split; [exact Hc|].
  exact (f_equal completedTrades Ht).
Defined.

(** ** The status report *)

Lemma getSafetyStatus_eq (s : config) :
  exists snap,
    getSafetyStatus s = (s, Return snap)
    /\ Status.circuitBreaker snap = ref_circuitBreaker
    /\ Status.testMode snap = ref_testMode
    /\ Status.authorizedProviders snap = ref_authorizedFlashloanProviders
    /\ Status.limits snap
       = {| Limits.maxSlippage :=
              (inject_Z (maxSlippageTolerance s) / inject_Z 100)%Q;
            Limits.maxGasPrice := maxGasPrice s;
            Limits.maxTradeSize :=
              if enabled (testMode s) then maxTestAmount (testMode s)
              else maxTradeSize s |}.
Proof. eexists. repeat split. Qed.

(** *** C6 *)

(** C6, as the specification states it, fails: the [circuitBreaker] and
    [testMode] fields of the object [getSafetyStatus] returns are the
    objects of [SAFETY_CONFIG] themselves.  A status taken from the initial
    state reads [isActive = false] and [completedTrades = 0]; after
    [activateCircuitBreaker] and one fulfilled monitored transaction the
    same status object reads [isActive = true] and [completedTrades = 1]. *)
Lemma getSafetyStatus_is_live :
  let later := run [call_activateCircuitBreaker;
                    call_monitoredTransaction (E := string) (Fulfilled 7)]
                   SAFETY_CONFIG in
  exists snap,
    getSafetyStatus SAFETY_CONFIG = (SAFETY_CONFIG, Return snap)
    /\ isActive (View.circuitBreaker (observe snap SAFETY_CONFIG)) = false
    /\ isActive (View.circuitBreaker (observe snap later)) = true
    /\ completedTrades (View.testMode (observe snap SAFETY_CONFIG)) = 0
    /\ completedTrades (View.testMode (observe snap later)) = 1
    /\ observe snap later <> observe snap SAFETY_CONFIG.
Proof.
  cbv zeta. eexists. split; [reflexivity|]. repeat split.
  intros H. apply (f_equal (fun v => isActive (View.circuitBreaker v))) in H.
  vm_compute in H. discriminate.
Qed.

(** C6 (amended).  [getSafetyStatus] changes nothing and returns an object
    whose [limits] are numbers computed from the state at the call: no later
    call changes them.  Its [circuitBreaker], [testMode] and
    [authorizedProviders] fields are the objects of [SAFETY_CONFIG]
    themselves: read at the call they show the state at the call, and read
    after any later calls they show the state those calls have produced. *)
Theorem getSafetyStatus_snapshot (s : config) (later : list call) :
  exists snap,
    getSafetyStatus s = (s, Return snap)
    /\ observe snap s
       = {| View.circuitBreaker := circuitBreaker s;
            View.testMode := testMode s;
            View.limits :=
              {| Limits.maxSlippage :=
                   (inject_Z (maxSlippageTolerance s) / inject_Z 100)%Q;
                 Limits.maxGasPrice := maxGasPrice s;
                 Limits.maxTradeSize :=
                   if enabled (testMode s) then maxTestAmount (testMode s)
                   else maxTradeSize s |};
            View.authorizedProviders := authorizedFlashloanProviders s |}
    /\ View.limits (observe snap (run later s)) = View.limits (observe snap s)
    /\ View.circuitBreaker (observe snap (run later s)) = circuitBreaker (run later s)
    /\ View.testMode (observe snap (run later s)) = testMode (run later s)
    /\ View.authorizedProviders (observe snap (run later s))
       = authorizedFlashloanProviders (run later s).
Proof.
  destruct (getSafetyStatus_eq s) as (snap & Hrun & Hcb & Htm & Hap & Hl).
  exists snap. split; [exact Hrun|].
  unfold observe. rewrite Hcb, Htm, Hap, Hl. repeat split.
Qed.

(** ** The circuit breaker *)

(** *** C7 *)

(** C7.  With a threshold of 3, a failure count of 0 and the flag not set:
    after two rejected promises in a row the count is 2, the flag is still
    not set, the breaker is not tripped and no emergency stop was thrown.
    The third rejected promise brings the count to 3; it sets the flag and
    throws the emergency stop when the message of its error can be read.
    When that message cannot be read (a promise rejected with [undefined] or
    [null]), the read throws before [checkCircuitBreaker] is run: the count
    is 3, the flag is not set and no emergency stop is thrown. *)
Theorem three_failures_trip_breaker
    (T E : Type) (e1 e2 e3 : rejection E) (s : config) :
  maxFailures (circuitBreaker s) = 3 ->
  consecutiveFailures (circuitBreaker s) = 0 ->
  isActive (circuitBreaker s) = false ->
  let r1 := monitoredTransaction (T := T) (Rejected e1) s in
  let r2 := monitoredTransaction (T := T) (Rejected e2) (fst r1) in
  let r3 := monitoredTransaction (T := T) (Rejected e3) (fst r2) in
  (forall err, snd r1 <> Throw (Stop err))
  /\ (forall err, snd r2 <> Throw (Stop err))
  /\ (message_readable e1 = true -> snd r1 = Throw (Rethrown e1))
  /\ (message_readable e2 = true -> snd r2 = Throw (Rethrown e2))
  /\ consecutiveFailures (circuitBreaker (fst r2)) = 2
  /\ isActive (circuitBreaker (fst r2)) = false
  /\ tripped (fst r2) = false
  /\ consecutiveFailures (circuitBreaker (fst r3)) = 3
  /\ (message_readable e3 = true ->
      isActive (circuitBreaker (fst r3)) = true
      /\ snd r3
         = Throw (Stop (new_Error "EMERGENCY STOP: Too many consecutive failures")))
  /\ (message_readable e3 = false ->
      isActive (circuitBreaker (fst r3)) = false
      /\ forall err, snd r3 <> Throw (Stop err)).
Proof.
  destruct s as [slip gas size providers [failures threshold active] tm].
  cbn. intros -> -> ->.
  destruct e1 as [| |e1|e1 x1], e2 as [| |e2|e2 x2], e3 as [| |e3|e3 x3]; cbn;
    repeat split; intros; try discriminate; reflexivity.
Qed.

Lemma three_failures_trip_breaker_witness :
  let s2 := run [call_monitoredTransaction (T := unit) (Rejected (Value "first"));
                 call_monitoredTransaction (T := unit) (Rejected (Value "second"))]
                SAFETY_CONFIG in
  let r3 := monitoredTransaction (T := unit) (E := string) (Rejected Undefined) s2 in
  consecutiveFailures (circuitBreaker (fst r3)) = 3
  /\ isActive (circuitBreaker (fst r3)) = false
  /\ snd r3 = Throw TypeError
  /\ forall err, snd r3 <> Throw (Stop err).
Proof.
  cbv zeta.
  pose proof (three_failures_trip_breaker unit string
                (Value "first") (Value "second") Undefined
                SAFETY_CONFIG eq_refl eq_refl eq_refl)
    as (_ & _ & _ & _ & _ & _ & _ & H3 & _ & Hbug).
  destruct (Hbug eq_refl) as [Ha Hs].
  split; [exact H3|]. split; [exact Ha|]. split; [reflexivity | exact Hs].
Defined.

(** *** C8 *)

(** C8, as the specification states it, fails: no monitored transaction is
    blocked by the tripped breaker and then succeeds after
    [deactivateCircuitBreaker].  In the state three failures lead to, a
    promise fulfilled with [7] is returned before the breaker is
    deactivated; and a rejected promise, which the tripped breaker turns
    into an emergency stop, still throws after it. *)
Lemma no_transaction_blocked_then_succeeds :
  let s3 := run (failures [Value "first"; Value "second"; Value "third"])
                SAFETY_CONFIG in
  let s' := fst (deactivateCircuitBreaker s3) in
  tripped s3 = true
  /\ snd (monitoredTransaction (E := string) (Fulfilled 7) s3) = Return 7
  /\ snd (monitoredTransaction (T := Z) (Rejected (Value "reverted")) s3)
     = Throw (Stop (new_Error "EMERGENCY STOP: Too many consecutive failures"))
  /\ snd (monitoredTransaction (T := Z) (Rejected (Value "reverted")) s')
     = Throw (Rethrown (Value "reverted"))
  /\ ~ exists txPromise : settled Z (rejection string),
        (exists err, snd (monitoredTransaction txPromise s3) = Throw (Stop err))
        /\ (exists result, snd (monitoredTransaction txPromise s') = Return result).
Proof.
  cbv zeta. do 4 (split; [reflexivity|]).
  intros ([result|error] & [err Hblocked] & [v Hsucceeds]).
  - vm_compute in Hblocked. discriminate Hblocked.
  - destruct (monitoredTransaction_rejected_count Z string error
                (fst (deactivateCircuitBreaker
                        (run (failures [Value "first"; Value "second"; Value "third"])
                             SAFETY_CONFIG))))
      as (s'' & x & Hrun & _).
    rewrite Hrun in Hsucceeds. discriminate Hsucceeds.
Qed.

(** C8 (amended).  [deactivateCircuitBreaker], a synchronous function,
    leaves [isActive = false] and [consecutiveFailures = 0] together,
    whatever the state before, and changes nothing else.  A monitored
    transaction whose promise is fulfilled returns its result before it as
    well as after it: the tripped breaker does not block it.  What changes
    is the failure: with the breaker tripped, a rejected promise (of which
    the message of the error can be read) ends in an emergency stop; after
    [deactivateCircuitBreaker], the threshold being above 1, it ends in the
    error of the operation and leaves the breaker untripped. *)
Theorem deactivateCircuitBreaker_resets (T E : Type) (s : config) :
  let s' := set_consecutiveFailures 0 (set_isActive false s) in
  deactivateCircuitBreaker s = (s', Return tt)
  /\ isActive (circuitBreaker s') = false
  /\ consecutiveFailures (circuitBreaker s') = 0
  /\ (forall result : T,
        snd (monitoredTransaction (E := E) (Fulfilled result) s) = Return result
        /\ snd (monitoredTransaction (E := E) (Fulfilled result) s')
           = Return result)
  /\ (forall error : rejection E,
        message_readable error = true ->
        tripped s = true ->
        1 < maxFailures (circuitBreaker s) ->
        (exists reason,
           snd (monitoredTransaction (T := T) (Rejected error) s)
           = Throw (Stop (new_Error ("EMERGENCY STOP: " ++ reason))))
        /\ monitoredTransaction (T := T) (Rejected error) s'
           = (set_consecutiveFailures 1 s', Throw (Rethrown error))
        /\ tripped (set_consecutiveFailures 1 s') = false).
Proof.
  intros s'. do 3 (split; [reflexivity|]). split.
  - intros result. rewrite !monitoredTransaction_fulfilled. split; reflexivity.
  - intros [| |error|error x] Hm Ht Hmax; try discriminate Hm.
    assert (Ht' : tripped (set_consecutiveFailures 1 s') = false).
    { unfold tripped. cbn. rewrite Z.geb_leb. apply Z.leb_gt. exact Hmax. }
    split; [|split; [|exact Ht']].
    + destruct (monitoredTransaction_rejected_tripped T E error s) as [reason ->].
      * unfold tripped in *. cbn.
        apply orb_true_iff in Ht as [Ht|Ht]; apply orb_true_iff;
          [left; exact Ht|right].
        apply Z.geb_le. apply Z.geb_le in Ht. lia.
      * exists reason. reflexivity.
    + apply (monitoredTransaction_rejected_ready T E error s'). exact Ht'.
Qed.

Lemma deactivateCircuitBreaker_resets_witness :
  let s3 := run (failures [Value "first"; Value "second"; Value "third"])
                SAFETY_CONFIG in
  let s' := fst (deactivateCircuitBreaker s3) in
  tripped s3 = true
  /\ (exists reason,
        snd (monitoredTransaction (T := Z) (Rejected (Value "reverted")) s3)
        = Throw (Stop (new_Error ("EMERGENCY STOP: " ++ reason))))
  /\ monitoredTransaction (T := Z) (Rejected (Value "reverted")) s'
     = (set_consecutiveFailures 1 s', Throw (Rethrown (Value "reverted")))
  /\ tripped (set_consecutiveFailures 1 s') = false.
Proof.
  cbv zeta.
  pose proof (deactivateCircuitBreaker_resets Z string
                (run (failures [Value "first"; Value "second"; Value "third"])
                     SAFETY_CONFIG))
    as (_ & _ & _ & _ & Hfail).
  split; [reflexivity|].
  exact (Hfail (Value "reverted") eq_refl eq_refl eq_refl).
Defined.

(** *** C9 *)

(** C9.  The effect of every call on [consecutiveFailures]: a monitored
    transaction whose promise is rejected adds one, a monitored transaction
    whose promise is fulfilled and [deactivateCircuitBreaker] set it to 0,
    and every other exported function leaves it as it is. *)
Theorem consecutiveFailures_changes (c : call) (s : config) :
  consecutiveFailures (circuitBreaker (exec c s))
  = match c with
    | call_monitoredTransaction (Rejected _) =>
        consecutiveFailures (circuitBreaker s) + 1
    | call_monitoredTransaction (Fulfilled _) => 0
    | call_deactivateCircuitBreaker => 0
    | _ => consecutiveFailures (circuitBreaker s)
    end.
Proof.
  destruct c as [reason| |a|i o|R approve spender a|tx|T E [result|error]| | | |];
    cbn [exec]; try reflexivity.
  - unfold checkCircuitBreaker. unfold_js. split_ifs; reflexivity.
  - destruct (validateFlashloanProvider_cases a s) as [[_ ->]|[_ ->]]; reflexivity.
  - destruct (validateTransaction_cases tx s) as [->|[reason ->]]; reflexivity.
  - rewrite monitoredTransaction_fulfilled. cbn.
    destruct (enabled (testMode s)); reflexivity.
  - destruct (monitoredTransaction_rejected_count T E error s) as (s' & x & -> & H).
    exact H.
Qed.

(** ** Further properties of the module *)

(** The states a call can leave behind, function by function. *)
Ltac exec_cases c s :=
  destruct c as [reason| |a|i o|R approve spender a|tx|T E [result|error]| | | |];
  cbn [exec];
  [ rewrite emergencyStop_eq
  | let Ht := fresh "Ht" in
    destruct (tripped s) eqn:Ht;
    [ destruct (checkCircuitBreaker_tripped s Ht) as [? ->]
    | rewrite (checkCircuitBreaker_ready s Ht) ]
  | destruct (validateFlashloanProvider_cases a s) as [[? ->]|[? ->]]
  | idtac
  | idtac
  | destruct (validateTransaction_cases tx s) as [->|[? ->]]
  | rewrite monitoredTransaction_fulfilled
  | let Ht := fresh "Ht" in
    let Hm := fresh "Hm" in
    destruct (message_readable error) eqn:Hm;
    [ destruct error as [| |error|error ?]; try discriminate Hm;
      destruct (tripped (set_consecutiveFailures
                           (consecutiveFailures (circuitBreaker s) + 1) s)) eqn:Ht;
      [ destruct (monitoredTransaction_rejected_tripped T E error s Ht) as [? ->]
      | rewrite (monitoredTransaction_rejected_ready T E error s Ht) ]
    | rewrite (monitoredTransaction_rejected_unreadable T E error s Hm) ]
  | idtac
  | idtac
  | idtac
  | idtac ];
  cbn [fst].

Lemma run_app (cs1 cs2 : list call) (s : config) :
  run (cs1 ++ cs2) s = run cs2 (run cs1 s).
Proof.
  revert s. induction cs1 as [|c cs1 IH]; intros s; [reflexivity|].
  cbn. apply IH.
Qed.

(** *** The validators *)

Lemma validateTransaction_returns_when (tx : txData) (s : config) :
  snd (validateTransaction tx s) = Return tt
  <-> gasPrice_passes tx s /\ amount_passes tx s /\ below_test_limit s.
Proof.
  unfold gasPrice_passes, amount_passes, below_test_limit,
    validateTransaction, truthy.
  unfold_js.
  destruct (gasPrice tx) as [g|], (amount tx) as [a|];
    split_ifs; cbn; split_ifs; cbn;
    (split; [intros H; try discriminate H; repeat split; intros;
             z_bool; try tauto; try lia; try congruence
            |intros (Hg & Ha & Hl); try reflexivity; exfalso;
             z_bool; try (specialize (Hl eq_refl)); try lia]).
Qed.

(** X1.  [validateTransaction] returns exactly when the gas price is absent,
    zero or at most [maxGasPrice], the amount is absent, zero or at most the
    ceiling in force, and, in test mode, fewer than [maxTestTrades] trades
    are completed; it then leaves the state as it is. *)
Theorem validateTransaction_returns_iff (tx : txData) (s : config) :
  (snd (validateTransaction tx s) = Return tt
   <-> gasPrice_passes tx s /\ amount_passes tx s /\ below_test_limit s)
  /\ (snd (validateTransaction tx s) = Return tt ->
      fst (validateTransaction tx s) = s).
Proof.
  split.
  - apply validateTransaction_returns_when.
  - intros H. destruct (validateTransaction_cases tx s) as [Hr|[reason Hr]];
      rewrite Hr in *; [reflexivity | discriminate H].
Qed.

Lemma validateTransaction_returns_iff_witness :
  snd (validateTransaction {| counterparty := None; gasPrice := Some 0; amount := Some (-20) |}
         (fst (activateCircuitBreaker SAFETY_CONFIG))) = Return tt.
Proof.
  apply (proj1 (validateTransaction_returns_iff _ _)).
  split; [left; reflexivity|]. split; [right; vm_compute; discriminate|].
  intros _. reflexivity.
Defined.

(** X2.  A gas price or an amount of zero counts as absent: the call ends
    the same way, in the same state, as the call on the transaction without
    that field, whatever the limits are. *)
Theorem validateTransaction_zero_as_absent (tx : txData) (s : config) :
  validateTransaction tx s
  = validateTransaction {| counterparty := counterparty tx;
                           gasPrice := zero_as_absent (gasPrice tx);
                           amount := zero_as_absent (amount tx) |} s.
Proof.
  unfold validateTransaction, zero_as_absent, truthy. unfold_js. cbn.
  destruct (gasPrice tx) as [g|]; [destruct (g =? 0) eqn:Hg|];
    (destruct (amount tx) as [a|]; [destruct (a =? 0) eqn:Ha|]);
    cbn; rewrite ?Hg, ?Ha; reflexivity.
Qed.

(** X3.  [validateTransaction] does not consult the circuit breaker: with
    any other failure count, threshold and flag it ends the same way, so a
    transaction within the limits is validated while the breaker is
    tripped. *)
Theorem validateTransaction_ignores_breaker
    (tx : txData) (s : config) (cb : circuitBreaker_t) :
  snd (validateTransaction tx (with_circuitBreaker (fun _ => cb) s))
  = snd (validateTransaction tx s).
Proof.
  destruct s as [slip gas size providers breaker tm].
  unfold validateTransaction, with_circuitBreaker. unfold_js.
  destruct (gasPrice tx) as [g|], (amount tx) as [a|];
    repeat (simpl;
            match goal with
            | |- context [if ?b then _ else _] => destruct b eqn:?
            end);
    reflexivity.
Qed.

(** X4.  [validateFlashloanProvider] returns exactly for the addresses that
    are elements of [authorizedFlashloanProviders], and then leaves the state
    as it is. *)
Theorem validateFlashloanProvider_returns_iff
    (providerAddress : string) (s : config) :
  validateFlashloanProvider providerAddress s = (s, Return tt)
  <-> In providerAddress (authorizedFlashloanProviders s).
Proof.
  rewrite <- includes_In.
  destruct (validateFlashloanProvider_cases providerAddress s)
    as [[Hi Hr]|[Hi Hr]]; rewrite Hr, Hi; split; intros H;
    try reflexivity; discriminate H.
Qed.

(** *** The circuit breaker *)

(** X5.  [checkCircuitBreaker] returns, leaving the state as it is, exactly
    when the breaker is not tripped.  When the failure count has reached the
    threshold it stops for too many failures, also when the flag is set; it
    stops for manual activation only when the flag is set and the count is
    below the threshold. *)
Theorem checkCircuitBreaker_outcome (s : config) :
  (checkCircuitBreaker s = (s, Return tt) <-> tripped s = false)
  /\ (consecutiveFailures (circuitBreaker s) >= maxFailures (circuitBreaker s) ->
      checkCircuitBreaker s
      = (set_isActive true s,
         Throw (new_Error "EMERGENCY STOP: Too many consecutive failures")))
  /\ (consecutiveFailures (circuitBreaker s) < maxFailures (circuitBreaker s) ->
      isActive (circuitBreaker s) = true ->
      checkCircuitBreaker s
      = (set_isActive true s,
         Throw (new_Error "EMERGENCY STOP: Circuit breaker manually activated"))).
Proof.
  split; [|split].
  - split; [|apply checkCircuitBreaker_ready].
    intros H. destruct (tripped s) eqn:Ht; [|reflexivity].
    destruct (checkCircuitBreaker_tripped s Ht) as [reason Hr].
    rewrite Hr in H. discriminate H.
  - intros H. unfold checkCircuitBreaker. unfold_js.
    split_ifs; try reflexivity; exfalso; z_bool; lia.
  - intros H Ha. unfold checkCircuitBreaker. unfold_js.
    split_ifs; cbn; rewrite ?Ha; try reflexivity; exfalso; z_bool; lia.
Qed.

Lemma checkCircuitBreaker_outcome_witness :
  checkCircuitBreaker (set_isActive true (set_consecutiveFailures 3 SAFETY_CONFIG))
  = (set_isActive true (set_consecutiveFailures 3 SAFETY_CONFIG),
     Throw (new_Error "EMERGENCY STOP: Too many consecutive failures"))
  /\ checkCircuitBreaker (set_isActive true SAFETY_CONFIG)
     = (set_isActive true SAFETY_CONFIG,
        Throw (new_Error "EMERGENCY STOP: Circuit breaker manually activated")).
Proof.
  split.
  - refine (proj1 (proj2 (checkCircuitBreaker_outcome
                            (set_isActive true
                               (set_consecutiveFailures 3 SAFETY_CONFIG)))) _).
    vm_compute. discriminate.
  - exact (proj2 (proj2 (checkCircuitBreaker_outcome
                           (set_isActive true SAFETY_CONFIG))) eq_refl eq_refl).
Defined.

(** *** One call *)

Lemma exec_constants (c : call) (s : config) :
  maxSlippageTolerance (exec c s) = maxSlippageTolerance s
  /\ maxGasPrice (exec c s) = maxGasPrice s
  /\ maxTradeSize (exec c s) = maxTradeSize s
  /\ authorizedFlashloanProviders (exec c s) = authorizedFlashloanProviders s
  /\ maxFailures (circuitBreaker (exec c s)) = maxFailures (circuitBreaker s)
  /\ maxTestTrades (testMode (exec c s)) = maxTestTrades (testMode s)
  /\ maxTestAmount (testMode (exec c s)) = maxTestAmount (testMode s).
Proof.
  exec_cases c s; try (repeat split; fail).
  cbn. destruct (enabled (testMode s)); repeat split.
Qed.

Lemma exec_isActive_stays (c : call) (s : config) :
  isActive (circuitBreaker s) = true ->
  is_deactivate c = false ->
  isActive (circuitBreaker (exec c s)) = true.
Proof.
  intros Ha Hc. exec_cases c s; try reflexivity; try exact Ha; try discriminate Hc.
  cbn. destruct (enabled (testMode s)); exact Ha.
Qed.

Lemma exec_enabled (c : call) (s : config) :
  enabled (testMode (exec c s))
  = enabled (testMode s) && negb (is_disableTestMode c).
Proof.
  exec_cases c s; cbn; rewrite ?andb_true_r, ?andb_false_r; try reflexivity.
  destruct (enabled (testMode s)) eqn:He; cbn; rewrite He; reflexivity.
Qed.

Lemma exec_completedTrades (c : call) (s : config) :
  completedTrades (testMode (exec c s))
  = if is_fulfilled c && enabled (testMode s)
    then completedTrades (testMode s) + 1
    else completedTrades (testMode s).
Proof.
  exec_cases c s; cbn; try reflexivity.
  destruct (enabled (testMode s)); reflexivity.
Qed.

Lemma exec_breaker_consistent (c : call) (s : config) :
  reads_message c = true ->
  breaker_consistent s -> breaker_consistent (exec c s).
Proof.
  unfold breaker_consistent. intros Hc (Hpos & Hnn & Himp).
  exec_cases c s; cbn; try (repeat split; (assumption || lia || reflexivity)).
  - destruct (enabled (testMode s)); cbn; repeat split; (assumption || lia).
  - unfold tripped in Ht. cbn in Ht. apply orb_false_iff in Ht as [Ha Hge].
    z_bool. repeat split; (assumption || lia).
  - cbn in Hc. rewrite Hc in Hm. discriminate Hm.
Qed.

(** *** Sequences of calls *)

Lemma run_isActive_stays (cs : list call) (s : config) :
  isActive (circuitBreaker s) = true ->
  existsb is_deactivate cs = false ->
  isActive (circuitBreaker (run cs s)) = true.
Proof.
  revert s. induction cs as [|c cs IH]; intros s Ha Hcs; [exact Ha|].
  cbn in Hcs. apply orb_false_iff in Hcs as [Hc Hcs].
  cbn. apply IH; [apply exec_isActive_stays; assumption | exact Hcs].
Qed.

(** X6.  Once the breaker's flag is set, it stays set through every
    sequence of calls without [deactivateCircuitBreaker]; after such a
    sequence [checkCircuitBreaker] still throws, and a monitored transaction
    whose promise is rejected with an error of which the message can be read
    throws the emergency stop. *)
Theorem isActive_stays_until_deactivated
    (T E : Type) (error : rejection E) (cs : list call) (s : config) :
  isActive (circuitBreaker s) = true ->
  existsb is_deactivate cs = false ->
  isActive (circuitBreaker (run cs s)) = true
  /\ (exists reason,
        snd (checkCircuitBreaker (run cs s))
        = Throw (new_Error ("EMERGENCY STOP: " ++ reason)))
  /\ (message_readable error = true ->
      exists reason,
        snd (monitoredTransaction (T := T) (Rejected error) (run cs s))
        = Throw (Stop (new_Error ("EMERGENCY STOP: " ++ reason)))).
Proof.
  intros Ha Hcs.
  pose proof (run_isActive_stays cs s Ha Hcs) as Hrun.
  split; [exact Hrun|]. split.
  - destruct (checkCircuitBreaker_tripped (run cs s)) as [reason ->].
    + unfold tripped. rewrite Hrun. reflexivity.
    + exists reason. reflexivity.
  - destruct error as [| |e|e x]; intros Hm; try discriminate Hm.
    destruct (monitoredTransaction_rejected_tripped T E e (run cs s))
      as [reason ->].
    + unfold tripped. cbn. rewrite Hrun. reflexivity.
    + exists reason. reflexivity.
Qed.

Lemma isActive_stays_until_deactivated_witness :
  let cs := [call_validateTransaction
               {| counterparty := None; gasPrice := Some 5; amount := Some 10 |};
             call_monitoredTransaction (E := string) (Fulfilled 7);
             call_monitoredTransaction (T := unit) (E := string) (Rejected Null);
             call_disableTestMode] in
  let s := fst (validateFlashloanProvider "0x0" SAFETY_CONFIG) in
  isActive (circuitBreaker (run cs s)) = true
  /\ exists reason,
       snd (monitoredTransaction (T := unit) (Rejected (Value "reverted")) (run cs s))
       = Throw (Stop (new_Error ("EMERGENCY STOP: " ++ reason))).
Proof.
  cbv zeta.
  pose proof (isActive_stays_until_deactivated unit string (Value "reverted")
                [call_validateTransaction
                   {| counterparty := None; gasPrice := Some 5; amount := Some 10 |};
                 call_monitoredTransaction (E := string) (Fulfilled 7);
                 call_monitoredTransaction (T := unit) (E := string) (Rejected Null);
                 call_disableTestMode]
                (fst (validateFlashloanProvider "0x0" SAFETY_CONFIG))
                eq_refl eq_refl) as (Ha & _ & Hr).
  split; [exact Ha | exact (Hr eq_refl)].
Defined.

(** X7.  No sequence of calls changes a limit: the slippage tolerance, the
    gas price and trade size ceilings, the list of providers, the failure
    threshold and the test mode ceiling and trade limit are what they were
    at the start. *)
Theorem limits_never_change (cs : list call) (s : config) :
  maxSlippageTolerance (run cs s) = maxSlippageTolerance s
  /\ maxGasPrice (run cs s) = maxGasPrice s
  /\ maxTradeSize (run cs s) = maxTradeSize s
  /\ authorizedFlashloanProviders (run cs s) = authorizedFlashloanProviders s
  /\ maxFailures (circuitBreaker (run cs s)) = maxFailures (circuitBreaker s)
  /\ maxTestTrades (testMode (run cs s)) = maxTestTrades (testMode s)
  /\ maxTestAmount (testMode (run cs s)) = maxTestAmount (testMode s).
Proof.
  revert s. induction cs as [|c cs IH]; intros s; [repeat split|].
  cbn. destruct (IH (exec c s)) as (H1 & H2 & H3 & H4 & H5 & H6 & H7).
  destruct (exec_constants c s) as (E1 & E2 & E3 & E4 & E5 & E6 & E7).
  rewrite H1, H2, H3, H4, H5, H6, H7. repeat split; assumption.
Qed.

(** X8.  Test mode is left for good: after a sequence of calls it is
    enabled exactly when it was enabled at the start and the sequence has no
    [disableTestMode]; nothing enables it again. *)
Theorem testMode_enabled_after (cs : list call) (s : config) :
  enabled (testMode (run cs s))
  = enabled (testMode s) && negb (existsb is_disableTestMode cs).
Proof.
  revert s. induction cs as [|c cs IH]; intros s.
  - cbn. rewrite andb_true_r. reflexivity.
  - cbn [run existsb]. rewrite IH, exec_enabled, negb_orb.
    rewrite andb_assoc. reflexivity.
Qed.

(** X9.  The trade count never goes down, and it goes up by at most one for
    each monitored transaction whose promise is fulfilled. *)
Theorem completedTrades_bounds (cs : list call) (s : config) :
  completedTrades (testMode s) <= completedTrades (testMode (run cs s))
  /\ completedTrades (testMode (run cs s))
     <= completedTrades (testMode s) + Z.of_nat (length (filter is_fulfilled cs)).
Proof.
  revert s. induction cs as [|c cs IH]; intros s; [cbn; lia|].
  cbn [run filter]. destruct (IH (exec c s)) as [Hlo Hhi].
  rewrite exec_completedTrades in Hlo, Hhi.
  destruct (is_fulfilled c); cbn [andb length] in *;
    [destruct (enabled (testMode s))|]; lia.
Qed.

(** X10.  While test mode is enabled and not disabled on the way, every
    fulfilled monitored transaction is counted, and the count is not held
    at [maxTestTrades]; once test mode is disabled the count stays as it
    is. *)
Theorem completedTrades_count (cs : list call) (s : config) :
  (enabled (testMode s) = true ->
   existsb is_disableTestMode cs = false ->
   completedTrades (testMode (run cs s))
   = completedTrades (testMode s) + Z.of_nat (length (filter is_fulfilled cs)))
  /\ (enabled (testMode s) = false ->
      completedTrades (testMode (run cs s)) = completedTrades (testMode s)).
Proof.
  split; revert s; induction cs as [|c cs IH]; intros s.
  - intros _ _. cbn. lia.
  - intros He Hcs. cbn in Hcs. apply orb_false_iff in Hcs as [Hc Hcs].
    cbn [run filter]. rewrite IH.
    + rewrite exec_completedTrades, He.
      destruct (is_fulfilled c); cbn [andb length]; lia.
    + rewrite exec_enabled, He, Hc. reflexivity.
    + exact Hcs.
  - intros _. reflexivity.
  - intros He. cbn [run]. rewrite IH.
    + rewrite exec_completedTrades, He, andb_false_r. reflexivity.
    + rewrite exec_enabled, He. reflexivity.
Qed.

Lemma completedTrades_count_witness :
  completedTrades (testMode (run (successes [1; 2; 3; 4; 5; 6; 7]) SAFETY_CONFIG)) = 7
  /\ completedTrades
       (testMode (run (call_disableTestMode :: successes [1; 2; 3]) SAFETY_CONFIG)) = 0.
Proof.
  split.
  - exact (proj1 (completedTrades_count (successes [1; 2; 3; 4; 5; 6; 7])
                    SAFETY_CONFIG) eq_refl eq_refl).
  - exact (proj2 (completedTrades_count (successes [1; 2; 3])
                    (exec call_disableTestMode SAFETY_CONFIG)) eq_refl).
Defined.

(** X11.  With a positive threshold, every sequence of calls in which the
    message of the error of each rejected promise can be read keeps the
    breaker consistent: the failure count is never negative and the flag is
    set whenever the count has reached the threshold, so that the breaker is
    tripped exactly when its flag is set. *)
Theorem breaker_stays_consistent (cs : list call) (s : config) :
  breaker_consistent s ->
  forallb reads_message cs = true ->
  breaker_consistent (run cs s)
  /\ tripped (run cs s) = isActive (circuitBreaker (run cs s)).
Proof.
  intros H Hcs.
  assert (Hrun : breaker_consistent (run cs s)).
  { revert s H. induction cs as [|c cs IH]; intros s H; [exact H|].
    cbn in Hcs. apply andb_true_iff in Hcs as [Hc Hcs].
    cbn. apply IH; [exact Hcs|]. apply exec_breaker_consistent; assumption. }
  split; [exact Hrun|].
  destruct Hrun as (_ & _ & Himp). unfold tripped.
  destruct (isActive (circuitBreaker (run cs s))) eqn:Ha; [reflexivity|].
  cbn. destruct (_ >=? _) eqn:Hge; [|reflexivity].
  z_bool. rewrite <- Himp; [reflexivity | lia].
Qed.

Lemma breaker_stays_consistent_witness :
  let cs := (failures [Value "a"; Value "b"; Value "c"; Value "d"]
             ++ [call_deactivateCircuitBreaker]
             ++ failures [Value "e"])%list in
  breaker_consistent (run cs SAFETY_CONFIG)
  /\ tripped (run cs SAFETY_CONFIG) = false.
Proof.
  cbv zeta.
  refine (let H := breaker_stays_consistent
                     (failures [Value "a"; Value "b"; Value "c"; Value "d"]
                      ++ [call_deactivateCircuitBreaker]
                      ++ failures [Value "e"])%list
                     SAFETY_CONFIG _ eq_refl in conj (proj1 H) eq_refl).
  split; [reflexivity|].
  split; [vm_compute; discriminate | intros H0; vm_compute in H0; now elim H0].
Defined.

Lemma monitoredTransaction_rejected_below
    (T E : Type) (error : rejection E) (s : config) :
  let s1 := set_consecutiveFailures (consecutiveFailures (circuitBreaker s) + 1) s in
  tripped s1 = false ->
  fst (monitoredTransaction (T := T) (Rejected error) s) = s1.
Proof.
  intros s1 Ht. destruct (message_readable error) eqn:Hm.
  - destruct error as [| |e|e x]; try discriminate Hm.
    rewrite (monitoredTransaction_rejected_ready T E e s Ht). reflexivity.
  - rewrite (monitoredTransaction_rejected_unreadable T E error s Hm). reflexivity.
Qed.

Lemma run_failures_count (E : Type) (errors : list (rejection E)) (s : config) :
  consecutiveFailures (circuitBreaker (run (failures errors) s))
  = consecutiveFailures (circuitBreaker s) + Z.of_nat (length errors).
Proof.
  revert s. induction errors as [|e errors IH]; intros s; [cbn; lia|].
  cbn [failures map run]. fold (failures errors). rewrite IH.
  cbn [exec].
  destruct (monitoredTransaction_rejected_count unit E e s) as (s' & x & -> & H).
  cbn [fst]. rewrite H. cbn [length]. lia.
Qed.

Lemma run_failures_below (E : Type) (errors : list (rejection E)) (s : config) :
  isActive (circuitBreaker s) = false ->
  consecutiveFailures (circuitBreaker s) + Z.of_nat (length errors)
    < maxFailures (circuitBreaker s) ->
  run (failures errors) s
  = set_consecutiveFailures
      (consecutiveFailures (circuitBreaker s) + Z.of_nat (length errors)) s.
Proof.
  revert s. induction errors as [|e errors IH]; intros s Ha Hlt.
  - cbn. rewrite Z.add_0_r. destruct s as [? ? ? ? [? ? ?] ?]. reflexivity.
  - cbn [failures map run]. fold (failures errors). cbn [exec length] in *.
    rewrite monitoredTransaction_rejected_below.
    + rewrite IH.
      * cbn. unfold set_consecutiveFailures, with_circuitBreaker. cbn.
        do 2 f_equal. lia.
      * exact Ha.
      * cbn. lia.
    + unfold tripped. cbn. rewrite Ha. cbn. rewrite Z.geb_leb. apply Z.leb_gt. lia.
Qed.

(** X12.  Failures in a row, for any threshold: the count goes up by one at
    each, also past the threshold.  Starting with the flag not set, as long
    as the count stays below the threshold nothing but the count changes;
    and when the count has reached the threshold, the flag is set after a
    failure of which the message of the error can be read. *)
Theorem failures_trip_at_threshold
    (E : Type) (errors : list (rejection E)) (s : config) :
  let n := consecutiveFailures (circuitBreaker s) + Z.of_nat (length errors) in
  consecutiveFailures (circuitBreaker (run (failures errors) s)) = n
  /\ (isActive (circuitBreaker s) = false -> n < maxFailures (circuitBreaker s) ->
      run (failures errors) s = set_consecutiveFailures n s)
  /\ (message_readable (last errors Undefined) = true ->
      n >= maxFailures (circuitBreaker s) ->
      isActive (circuitBreaker (run (failures errors) s)) = true).
Proof.
  intros n. split; [apply run_failures_count|]. split; [apply run_failures_below|].
  subst n. revert s. induction errors as [|e errors IH]; intros s Hlast Hge;
    [discriminate Hlast|].
  cbn [failures map run]. fold (failures errors).
  destruct errors as [|e' errors].
  - cbn [failures map run exec length last] in *.
    destruct e as [| |e|e x]; try discriminate Hlast.
    destruct (monitoredTransaction_rejected_tripped unit E e s) as [reason ->];
      [|reflexivity].
    unfold tripped. cbn. apply orb_true_iff. right. apply Z.geb_le. lia.
  - apply IH; [exact Hlast|].
    destruct (exec_constants (call_monitoredTransaction (T := unit) (Rejected e)) s)
      as (_ & _ & _ & _ & -> & _).
    cbn [exec].
    destruct (monitoredTransaction_rejected_count unit E e s) as (s' & x & -> & H).
    cbn [fst]. rewrite H. cbn [length] in *. lia.
Qed.

Lemma failures_trip_at_threshold_witness :
  run (failures [Value "a"; Undefined]) SAFETY_CONFIG
  = set_consecutiveFailures 2 SAFETY_CONFIG
  /\ isActive (circuitBreaker
                 (run (failures [Value "a"; Null; Value "c"]) SAFETY_CONFIG)) = true.
Proof.
  split.
  - refine (proj1 (proj2 (failures_trip_at_threshold string [Value "a"; Undefined]
                            SAFETY_CONFIG)) eq_refl _).
    reflexivity.
  - refine (proj2 (proj2 (failures_trip_at_threshold string
                            [Value "a"; Null; Value "c"] SAFETY_CONFIG)) eq_refl _).
    vm_compute. discriminate.
Defined.

(** X13.  A success starts the count again: failures short of the
    threshold, one fulfilled monitored transaction, then again failures
    short of the threshold leave the flag not set, and the count is the
    number of failures since the success. *)
Theorem success_resets_failure_streak
    (T E : Type) (before after : list (rejection E)) (result : T) (s : config) :
  isActive (circuitBreaker s) = false ->
  consecutiveFailures (circuitBreaker s) + Z.of_nat (length before)
    < maxFailures (circuitBreaker s) ->
  Z.of_nat (length after) < maxFailures (circuitBreaker s) ->
  let s' := run (failures before ++ successes [result] ++ failures after)%list s in
  isActive (circuitBreaker s') = false
  /\ consecutiveFailures (circuitBreaker s') = Z.of_nat (length after)
  /\ tripped s' = false.
Proof.
  intros Ha Hb Hafter s'. subst s'.
  rewrite run_app, (run_failures_below E before s Ha Hb), run_app.
  remember (run (successes [result]) _) as s1 eqn:Hs1.
  assert (H1 : isActive (circuitBreaker s1) = false
               /\ consecutiveFailures (circuitBreaker s1) = 0
               /\ maxFailures (circuitBreaker s1) = maxFailures (circuitBreaker s)).
  { subst s1. cbn [successes map run exec].
    rewrite monitoredTransaction_fulfilled. cbn.
    destruct (enabled (testMode s)); cbn; repeat split; exact Ha. }
  clear Hs1. destruct H1 as (Ha1 & Hc1 & Hm1).
  rewrite (run_failures_below E after s1 Ha1) by lia.
  rewrite Hc1. split; [exact Ha1|]. split; [cbn; lia|].
  unfold tripped. cbn. rewrite Ha1, Hm1. cbn.
  rewrite Z.geb_leb. apply Z.leb_gt. lia.
Qed.

Lemma success_resets_failure_streak_witness :
  let s' := run (failures [Value "a"; Value "b"] ++ successes [7]
                 ++ failures [Value "c"; Undefined])%list
                SAFETY_CONFIG in
  isActive (circuitBreaker s') = false
  /\ consecutiveFailures (circuitBreaker s') = 2
  /\ tripped s' = false.
Proof.
  cbv zeta.
  refine (success_resets_failure_streak Z string [Value "a"; Value "b"]
            [Value "c"; Undefined] 7 SAFETY_CONFIG eq_refl _ _); reflexivity.
Defined.

(** *** Test mode *)

Lemma validateTransaction_rejects_at_limit (tx : txData) (s : config) :
  enabled (testMode s) = true ->
  completedTrades (testMode s) >= maxTestTrades (testMode s) ->
  exists reason,
    validateTransaction tx s
    = (set_isActive true s, Throw (new_Error ("EMERGENCY STOP: " ++ reason))).
Proof.
  intros Hen Hlim.
  destruct (validateTransaction_cases tx s) as [Hret|Hthrow]; [|exact Hthrow].
  exfalso. apply (f_equal snd) in Hret. cbn [snd] in Hret.
  apply validateTransaction_returns_when in Hret as (_ & _ & Hl).
  specialize (Hl Hen). lia.
Qed.

Lemma run_testMode_on (cs : list call) (s : config) :
  enabled (testMode s) = true ->
  existsb is_disableTestMode cs = false ->
  enabled (testMode (run cs s)) = true
  /\ maxTestTrades (testMode (run cs s)) = maxTestTrades (testMode s)
  /\ completedTrades (testMode (run cs s))
     = completedTrades (testMode s) + Z.of_nat (length (filter is_fulfilled cs)).
Proof.
  revert s. induction cs as [|c cs IH]; intros s He Hcs.
  - cbn. repeat split; [exact He | lia].
  - cbn in Hcs. apply orb_false_iff in Hcs as [Hc Hcs].
    cbn [run filter].
    destruct (IH (exec c s)) as (He' & Hm' & Hc').
    + rewrite exec_enabled, He, Hc. reflexivity.
    + exact Hcs.
    + destruct (exec_constants c s) as (_ & _ & _ & _ & _ & Hm & _).
      rewrite He', Hm', Hc', Hm, exec_completedTrades, He.
      repeat split. destruct (is_fulfilled c); cbn [andb length]; lia.
Qed.

(** X14.  The test mode trade limit is final within test mode: once the
    trades completed at the start and the fulfilled monitored transactions
    since then add up to [maxTestTrades], [validateTransaction] rejects
    every transaction and sets the breaker's flag, whatever calls were made
    on the way ([deactivateCircuitBreaker] among them), [disableTestMode]
    apart. *)
Theorem test_limit_reached_is_final (cs : list call) (tx : txData) (s : config) :
  enabled (testMode s) = true ->
  existsb is_disableTestMode cs = false ->
  completedTrades (testMode s) + Z.of_nat (length (filter is_fulfilled cs))
    >= maxTestTrades (testMode s) ->
  exists reason,
    validateTransaction tx (run cs s)
    = (set_isActive true (run cs s),
       Throw (new_Error ("EMERGENCY STOP: " ++ reason))).
Proof.
  intros He Hcs Hlim.
  destruct (run_testMode_on cs s He Hcs) as (He' & Hm' & Hc').
  apply validateTransaction_rejects_at_limit; [exact He'|].
  rewrite Hm', Hc'. exact Hlim.
Qed.

Lemma test_limit_reached_is_final_witness :
  exists reason,
    validateTransaction {| counterparty := None; gasPrice := None; amount := Some 1 |}
      (run (successes [1; 2; 3; 4; 5] ++ [call_deactivateCircuitBreaker])%list
           SAFETY_CONFIG)
    = (set_isActive true
         (run (successes [1; 2; 3; 4; 5] ++ [call_deactivateCircuitBreaker])%list
              SAFETY_CONFIG),
       Throw (new_Error ("EMERGENCY STOP: " ++ reason))).
Proof.
  refine (test_limit_reached_is_final
            (successes [1; 2; 3; 4; 5] ++ [call_deactivateCircuitBreaker])%list
            {| counterparty := None; gasPrice := None; amount := Some 1 |} SAFETY_CONFIG
            eq_refl eq_refl _).
  vm_compute. discriminate.
Defined.

(** *** The status report and the validator *)

(** X15.  The limits [getSafetyStatus] reports are the limits
    [validateTransaction] enforces in the state of the report: a transaction
    is validated exactly when its gas price is absent, zero or at most the
    reported [maxGasPrice], its amount is absent, zero or at most the
    reported [maxTradeSize], and the test mode limit leaves room. *)
Theorem reported_limits_are_enforced
    (tx : txData) (s : config) (snap : Status.t) :
  getSafetyStatus s = (s, Return snap) ->
  snd (validateTransaction tx s) = Return tt
  <-> match gasPrice tx with
      | Some g => g = 0 \/ g <= Limits.maxGasPrice (Status.limits snap)
      | None => True
      end
      /\ match amount tx with
         | Some a => a = 0 \/ a <= Limits.maxTradeSize (Status.limits snap)
         | None => True
         end
      /\ below_test_limit s.
Proof.
  intros H.
  destruct (getSafetyStatus_eq s) as (snap' & Hrun & _ & _ & _ & Hl).
  rewrite Hrun in H. inversion H. subst snap'. rewrite Hl. cbn.
  apply validateTransaction_returns_when.
Qed.

Lemma reported_limits_are_enforced_witness :
  snd (validateTransaction {| counterparty := None; gasPrice := Some 1000; amount := Some 10000 |}
         (exec call_disableTestMode SAFETY_CONFIG)) = Return tt.
Proof.
  refine (proj2 (reported_limits_are_enforced
                   {| counterparty := None; gasPrice := Some 1000; amount := Some 10000 |}
                   (exec call_disableTestMode SAFETY_CONFIG) _ eq_refl) _).
  split; [right; vm_compute; discriminate|].
  split; [right; vm_compute; discriminate|].
  intros H. discriminate H.
Defined.
